(** * rustify std-types: the Option and Result classes and their helpers

A shallow embedding of
  - packages/option/src/index.ts    (class Option),
  - packages/option/src/helpers.ts  (wrapSync, wrapAsync, collect, transpose,
    findSome),
  - packages/result/src/index.ts    (class Result),
  - packages/result/src/helpers.ts  (wrapSync, wrapAsync, collect),
followed by the properties the specification states about them.

TypeScript types are erased before the code runs, so the embedding works
on the values the compiled JavaScript manipulates.  Arguments are given
the Rocq type that corresponds to their declared TypeScript type; a
result is typed [val] wherever the code can hand back something that
its declared return type does not describe. *)

From Stdlib Require Import ZArith List String Bool Lia DecimalString.
Import ListNotations.
Local Open Scope string_scope.

(** ** Host values *)

(** Function objects that the code passes around as plain values. *)
Inductive funref : Type :=
| Option_none_method.   (* the static method stored in the property [Option.none] *)

#[local] Set Warnings "-register-all".

(** The universe of host values: [undefined], [null], booleans, numbers
    whose value is an integer, strings, symbols (with their description),
    arrays, error objects (with their [name] and [message]), instances of
    the two classes and function objects.  An instance is written as the
    call of the private constructor that builds it. *)
Inductive val : Type :=
| VUndefined
| VNull
| VBool (b : bool)
| VNumber (n : Z)
| VString (s : string)
| VSymbol (description : string)
| VArray (elems : list val)
| VError (name message : string)
| VOption (o : OptionInstance)
| VResult (r : ResultInstance)
| VFunction (f : funref)
with OptionInstance : Type :=
| new_Option (_isSome : bool) (_value : val)
with ResultInstance : Type :=
| new_Result (_isOk : bool) (_value : val) (_error : val).

(** [new Error(message)] *)
Definition new_Error (message : string) : val := VError "Error" message.

(** [v == null]: loose equality with [null] holds for [null] and [undefined]
    only. *)
Definition loose_eq_null (v : val) : bool :=
  match v with
  | VNull | VUndefined => true
  | _ => false
  end.

(** ** Completions and effects *)

(** How an evaluation ends: normally with a result, or abruptly with a
    thrown value. *)
Inductive completion (A : Type) : Type :=
| Normal (a : A)
| Throw (e : val).
Arguments Normal {A} a.
Arguments Throw {A} e.

(** Sequencing of code that can throw but touches no state. *)
Definition cbind {A B : Type} (c : completion A) (k : A -> completion B)
  : completion B :=
  match c with
  | Normal a => k a
  | Throw e => Throw e
  end.

(** The [TypeError] of a conversion of a symbol to a string (the message is
    the engine's). *)
Definition symbol_TypeError : val :=
  VError "TypeError" "Cannot convert a Symbol value to a string".

(** The largest magnitude up to which every integer is a number value of its
    own: 2^53. *)
Definition exact_integer_bound : Z := 9007199254740992%Z.

(** The host's ToString conversion, as a template literal applies it.  It
    throws on a symbol.  A number prints in plain decimal digits as long as
    its magnitude is at most 2^53; how the host prints a larger one
    (rounded to the nearest number value, in shortest round-trip digits,
    with an exponent from 1e21 on) is given by [number_text].
    [source_text] gives the implementation-defined text that
    [Function.prototype.toString] returns for a function object. *)
Section ToString.
Variable source_text : funref -> string.
Variable number_text : Z -> string.

Fixpoint ToString (v : val) : completion string :=
  match v with
  | VUndefined => Normal "undefined"
  | VNull => Normal "null"
  | VBool true => Normal "true"
  | VBool false => Normal "false"
  | VNumber n =>
      if (Z.abs n <=? exact_integer_bound)%Z
      then Normal (NilZero.string_of_int (Z.to_int n))
      else Normal (number_text n)
  | VString s => Normal s
  | VSymbol _ => Throw symbol_TypeError
  | VArray elems =>
      (* Array.prototype.join(","): null and undefined elements print as "",
         the others are converted from left to right *)
      let element x := if loose_eq_null x then Normal "" else ToString x in
      (fix join (l : list val) : completion string :=
         match l with
         | [] => Normal ""
         | [x] => element x
         | x :: (_ :: _) as rest =>
             cbind (element x)
                   (fun first => cbind (join rest)
                                       (fun others => Normal (first ++ "," ++ others)))
         end) elems
  | VError name message =>
      (* Error.prototype.toString *)
      if String.eqb name "" then Normal message
      else if String.eqb message "" then Normal name
      else Normal (name ++ ": " ++ message)
  | VOption _ | VResult _ => Normal "[object Object]"
  | VFunction f => Normal (source_text f)
  end.
End ToString.


(** A call of user code (a callback) may read and write the world and may
    throw.  The type [W] of worlds is left abstract. *)
Definition M (W A : Type) : Type := W -> completion A * W.

Definition ret {W A : Type} (a : A) : M W A := fun w => (Normal a, w).

Definition throw {W A : Type} (e : val) : M W A := fun w => (Throw e, w).

Definition bind {W A B : Type} (m : M W A) (k : A -> M W B) : M W B :=
  fun w =>
    match m w with
    | (Normal a, w') => k a w'
    | (Throw e, w') => (Throw e, w')
    end.

(** [try { m } catch (e) { handler e }] *)
Definition try_catch {W A : Type} (m : M W A) (handler : val -> M W A) : M W A :=
  fun w =>
    match m w with
    | (Normal a, w') => (Normal a, w')
    | (Throw e, w') => handler e w'
    end.

Definition lift {W A : Type} (c : completion A) : M W A := fun w => (c, w).

(** The state in which a promise ends up: it stays pending for ever, or it is
    fulfilled with a value, or it is rejected with a reason.  An [await] on
    it never resumes, resumes with the value, or throws the reason. *)
Inductive Promise (A : Type) : Type :=
| Pending
| Fulfilled (a : A)
| Rejected (reason : val).
Arguments Pending {A}.
Arguments Fulfilled {A} a.
Arguments Rejected {A} reason.

(** The promise that an async function returns when its body ends in the
    completion [c]. *)
Definition settled {A : Type} (c : completion A) : Promise A :=
  match c with
  | Normal a => Fulfilled a
  | Throw e => Rejected e
  end.

Declare Scope js_scope.
Delimit Scope js_scope with js.
Notation "'const' x := m ; k" := (bind m (fun x => k))
  (at level 10, x name, m at level 100, k at level 200) : js_scope.

(** ** class Option (packages/option/src/index.ts) *)

Module Option.

Definition t : Type := OptionInstance.

Definition _isSome (this : t) : bool :=
  match this with new_Option b _ => b end.

Definition _value (this : t) : val :=
  match this with new_Option _ v => v end.

(* static some<T>(value: T): Option<T> *)
Definition some (value : val) : t := new_Option true value.

(* static none<T = never>(): Option<T> *)
Definition none : t := new_Option false VUndefined.

Definition isSome (this : t) : bool := _isSome this.

Definition isNone (this : t) : bool := negb (_isSome this).

(* get value(): T *)
Definition value (this : t) : completion val :=
  if negb (_isSome this) then Throw (new_Error "Called value on a None option")
  else Normal (_value this).

(* and<U>(other: Option<U>): Option<U> *)
Definition and (this other : t) : t :=
  if _isSome this then other else none.

(* or(other: Option<T>): Option<T> *)
Definition or (this other : t) : t :=
  if _isSome this then this else other.

Definition unwrap (this : t) : completion val :=
  if _isSome this then Normal (_value this)
  else Throw (new_Error "Called unwrap on a None value").

Definition unwrapOr (this : t) (defaultValue : val) : val :=
  if _isSome this then _value this else defaultValue.

Definition expect (this : t) (message : string) : completion val :=
  if _isSome this then Normal (_value this)
  else Throw (new_Error message).

Definition toNullable (this : t) : val :=
  if _isSome this then _value this else VNull.

Definition toUndefined (this : t) : val :=
  if _isSome this then _value this else VUndefined.

(* static fromNullable<T>(value: T | null | undefined): Option<T> *)
Definition fromNullable (value : val) : t :=
  if negb (loose_eq_null value) then some value else none.

Section Callbacks.
Context {W : Type}.
Local Open Scope js_scope.

Definition map (this : t) (fn : val -> M W val) : M W t :=
  if _isSome this then (const r := fn (_value this); ret (some r))
  else ret none.

Definition mapOr (this : t) (defaultValue : val)
           (fn : val -> M W val) : M W val :=
  if _isSome this then fn (_value this) else ret defaultValue.

Definition mapOrElse (this : t) (defaultFn : M W val)
           (fn : val -> M W val) : M W val :=
  if _isSome this then fn (_value this) else defaultFn.

Definition andThen (this : t) (fn : val -> M W t) : M W t :=
  if _isSome this then fn (_value this) else ret none.

Definition orElse (this : t) (fn : M W t) : M W t :=
  if _isSome this then ret this else fn.

(* the test [this._isSome && predicate(this._value!)] calls the predicate
   only when [_isSome] holds *)
Definition filter (this : t) (predicate : val -> M W bool) : M W t :=
  const keep := (if _isSome this then predicate (_value this) else ret false);
  if keep then ret this else ret none.

Definition unwrapOrElse (this : t) (fn : M W val) : M W val :=
  if _isSome this then ret (_value this) else fn.
End Callbacks.

End Option.

(** ** class Result (packages/result/src/index.ts) *)

Module Result.

Definition t : Type := ResultInstance.

Definition _isOk (this : t) : bool :=
  match this with new_Result b _ _ => b end.

Definition _value (this : t) : val :=
  match this with new_Result _ v _ => v end.

Definition _error (this : t) : val :=
  match this with new_Result _ _ e => e end.

(* static ok<T>(value: T): Result<T, never> *)
Definition ok (value : val) : t := new_Result true value VUndefined.

(* static err<E>(error: E): Result<never, E> *)
Definition err (error : val) : t := new_Result false VUndefined error.

Definition isOk (this : t) : bool := _isOk this.

Definition isErr (this : t) : bool := negb (_isOk this).

(* get value(): T *)
Definition value (this : t) : completion val :=
  if negb (_isOk this) then Throw (new_Error "Called value on an Err result")
  else Normal (_value this).

(* get error(): E *)
Definition error (this : t) : completion val :=
  if _isOk this then Throw (new_Error "Called error on an Ok result")
  else Normal (_error this).

(* get ok(): boolean; the instance getter shares its name with the static
   factory, hence the prime *)
Definition ok' (this : t) : bool := _isOk this.

(* and<U>(other: Result<U, E>): Result<U, E> *)
Definition and (this other : t) : t :=
  if _isOk this then other else this.

(* or<U>(other: Result<U, E>): Result<T | U, E> *)
Definition or (this other : t) : t :=
  if _isOk this then this else other.

Definition unwrapOr (this : t) (defaultValue : val) : val :=
  if _isOk this then _value this else defaultValue.

Section TemplateLiterals.
Variable source_text : funref -> string.
Variable number_text : Z -> string.

(* the template literal is evaluated, and can throw, before the Error is
   built *)
Definition unwrap (this : t) : completion val :=
  if _isOk this then Normal (_value this)
  else cbind (ToString source_text number_text (_error this))
             (fun text =>
                Throw (new_Error ("Called unwrap on an Err value: " ++ text))).

Definition expect (this : t) (message : string) : completion val :=
  if _isOk this then Normal (_value this)
  else cbind (ToString source_text number_text (_error this))
             (fun text => Throw (new_Error (message ++ ": " ++ text))).
End TemplateLiterals.

Section Callbacks.
Context {W : Type}.
Local Open Scope js_scope.

Definition map (this : t) (fn : val -> M W val) : M W t :=
  if _isOk this then (const r := fn (_value this); ret (ok r))
  else ret this.

Definition mapErr (this : t) (fn : val -> M W val) : M W t :=
  if _isOk this then ret this
  else (const r := fn (_error this); ret (err r)).

Definition andThen (this : t) (fn : val -> M W t) : M W t :=
  if _isOk this then fn (_value this) else ret this.

Definition orElse (this : t) (fn : val -> M W t) : M W t :=
  if _isOk this then ret this else fn (_error this).

Definition unwrapOrElse (this : t) (fn : val -> M W val) : M W val :=
  if _isOk this then ret (_value this) else fn (_error this).
End Callbacks.

End Result.

(** ** Option helpers (packages/option/src/helpers.ts) *)

Module OptionHelpers.

Section WrapSync.
Context {W : Type}.
Local Open Scope js_scope.

(* try { const value = fn(); return Option.some(value); }
   catch { return Option.none; }
   The catch block returns the property [Option.none] itself: the static
   method is not called. *)
Definition wrapSync (fn : M W val) : M W val :=
  try_catch
    (const value := fn; ret (VOption (Option.some value)))
    (fun _ => ret (VFunction Option_none_method)).
End WrapSync.

(* try { const value = await promise; return Option.some(value); }
   catch { return Option.none; }
   given as the state of the returned promise for each state of [promise] *)
Definition wrapAsync (promise : Promise val) : Promise val :=
  match promise with
  | Pending => Pending
  | Fulfilled value => settled (Normal (VOption (Option.some value)))
  | Rejected _ => settled (Normal (VFunction Option_none_method))
  end.

(* the [for (const option of options)] loop of [collect], with the local
   array [values] as an accumulator *)
Fixpoint collect_loop (options : list Option.t) (values : list val)
  : completion val :=
  match options with
  | [] => Normal (VOption (Option.some (VArray values)))
  | option :: rest =>
      if Option.isSome option then
        cbind (Option.value option)
              (fun v => collect_loop rest (values ++ [v]))
      else Normal (VFunction Option_none_method)
  end.

Definition collect (options : list Option.t) : completion val :=
  collect_loop options [].

(* Array.prototype.map with a callback that can throw *)
Fixpoint array_map {A B : Type} (f : A -> completion B) (l : list A)
  : completion (list B) :=
  match l with
  | [] => Normal []
  | x :: rest =>
      cbind (f x) (fun y => cbind (array_map f rest) (fun ys => Normal (y :: ys)))
  end.

Definition transpose (options : list Option.t) : completion (list val) :=
  array_map Option.value (List.filter Option.isSome options).

Fixpoint findSome (options : list Option.t) : val :=
  match options with
  | [] => VFunction Option_none_method
  | option :: rest =>
      if Option.isSome option then VOption option else findSome rest
  end.

End OptionHelpers.

(** ** Result helpers (packages/result/src/helpers.ts) *)

Module ResultHelpers.

Section WrapSync.
Context {W : Type}.
Local Open Scope js_scope.

(* try { return Result.ok(fn()); } catch (error) { return Result.err(error); } *)
Definition wrapSync (fn : M W val) : M W Result.t :=
  try_catch
    (const r := fn; ret (Result.ok r))
    (fun error => ret (Result.err error)).
End WrapSync.

(* try { const value = await promise; return Result.ok(value); }
   catch (error) { return Result.err(error); }
   given as the state of the returned promise for each state of [promise] *)
Definition wrapAsync (promise : Promise val) : Promise Result.t :=
  match promise with
  | Pending => Pending
  | Fulfilled value => settled (Normal (Result.ok value))
  | Rejected error => settled (Normal (Result.err error))
  end.

Fixpoint collect_loop (results : list Result.t) (values : list val)
  : completion Result.t :=
  match results with
  | [] => Normal (Result.ok (VArray values))
  | result :: rest =>
      if Result.isErr result then Normal result
      else cbind (Result.value result)
                 (fun v => collect_loop rest (values ++ [v]))
  end.

Definition collect (results : list Result.t) : completion Result.t :=
  collect_loop results [].

End ResultHelpers.

(** ** What a caller can observe *)

(** [v instanceof Option] *)
Definition instanceof_Option (v : val) : bool :=
  match v with
  | VOption _ => true
  | _ => false
  end.

(** The call [receiver.isNone()] on an arbitrary value, as the helper tests
    make it on what a helper returned.  Only instances of [Option] have the
    method; elsewhere the call throws a [TypeError] (whose message is the
    engine's). *)
Definition call_isNone (receiver : val) : completion bool :=
  match receiver with
  | VOption o => Normal (Option.isNone o)
  | VUndefined | VNull =>
      Throw (VError "TypeError" "Cannot read properties of undefined or null")
  | _ => Throw (VError "TypeError" "isNone is not a function")
  end.

(** Two Option instances are observationally equal when the two public
    observers, [isSome()] and the getter [value], cannot tell them apart. *)
Definition Option_obs_eq (a b : Option.t) : Prop :=
  Option.isSome a = Option.isSome b /\ Option.value a = Option.value b.

(** Likewise for Result, with the observers [isOk()], [value] and [error]. *)
Definition Result_obs_eq (a b : Result.t) : Prop :=
  Result.isOk a = Result.isOk b
  /\ Result.value a = Result.value b
  /\ Result.error a = Result.error b.

(** The constructors are private: every instance comes out of a factory. *)
Inductive Option_built : Option.t -> Prop :=
| built_some (v : val) : Option_built (Option.some v)
| built_none : Option_built Option.none.

Inductive Result_built : Result.t -> Prop :=
| built_ok (v : val) : Result_built (Result.ok v)
| built_err (e : val) : Result_built (Result.err e).

(** The identity function, as a callback. *)
Definition identity {W : Type} (v : val) : M W val := ret v.

(** A callback that counts its calls in the world and returns [r]. *)
Definition counting (r : val) : M nat val := fun calls => (Normal r, S calls).

(** A callback that counts its calls in the world and throws [e]. *)
Definition counting_thrower (e : val) : M nat val :=
  fun calls => (Throw e, S calls).

(** * Properties *)

(** ** Instances and observational equality *)

Lemma isSome_isNone_exclusive (x : Option.t) :
  Option.isNone x = negb (Option.isSome x).
Proof. reflexivity. Qed.

Lemma isOk_isErr_exclusive (x : Result.t) :
  Result.isErr x = negb (Result.isOk x).
Proof. reflexivity. Qed.

Lemma Option_obs_eq_refl (x : Option.t) : Option_obs_eq x x.
Proof. split; reflexivity. Qed.

Lemma Result_obs_eq_refl (x : Result.t) : Result_obs_eq x x.
Proof. repeat split. Qed.

(** On instances that the factories built, observational equality is
    equality. *)
Lemma Option_obs_eq_built (a b : Option.t) :
  Option_built a -> Option_built b -> Option_obs_eq a b -> a = b.
Proof.
  intros Ha Hb [Hs Hv].
  destruct Ha, Hb; cbn in *; try discriminate; congruence.
Qed.

Lemma Result_obs_eq_built (a b : Result.t) :
  Result_built a -> Result_built b -> Result_obs_eq a b -> a = b.
Proof.
  intros Ha Hb (Hs & Hv & He).
  destruct Ha, Hb; cbn in *; try discriminate; congruence.
Qed.

(** Observationally equal instances answer every method that takes no
    callback alike. *)
Lemma Option_obs_eq_methods (a b : Option.t) :
  Option_obs_eq a b ->
  Option.isNone a = Option.isNone b
  /\ Option.unwrap a = Option.unwrap b
  /\ Option.toNullable a = Option.toNullable b
  /\ Option.toUndefined a = Option.toUndefined b
  /\ (forall d, Option.unwrapOr a d = Option.unwrapOr b d)
  /\ (forall m, Option.expect a m = Option.expect b m).
Proof.
  intros [Hs Hv].
  destruct a as [[] va], b as [[] vb]; cbn in *;
    try discriminate; try (injection Hv as ->); repeat split.
Qed.

(** ** The loops of the two [collect] helpers *)

Lemma Option_collect_loop_all_some (options : list Option.t) :
  forallb Option.isSome options = true ->
  forall values,
    OptionHelpers.collect_loop options values
    = Normal (VOption (Option.some
                         (VArray (values ++ List.map Option._value options)))).
Proof.
  induction options as [|option rest IH]; intros Hall values; cbn.
  - now rewrite app_nil_r.
  - cbn in Hall. apply andb_prop in Hall as [Hhd Htl].
    rewrite Hhd. unfold Option.value. unfold Option.isSome in Hhd.
    rewrite Hhd. cbn. rewrite (IH Htl). now rewrite <- app_assoc.
Qed.

Lemma Option_collect_loop_first_none (somes : list Option.t) :
  forallb Option.isSome somes = true ->
  forall absent rest values,
    Option.isSome absent = false ->
    OptionHelpers.collect_loop (somes ++ absent :: rest) values
    = Normal (VFunction Option_none_method).
Proof.
  induction somes as [|option more IH]; intros Hall absent rest values Habs; cbn.
  - now rewrite Habs.
  - cbn in Hall. apply andb_prop in Hall as [Hhd Htl].
    rewrite Hhd. unfold Option.value. unfold Option.isSome in Hhd.
    rewrite Hhd. cbn. now apply IH.
Qed.

Lemma Result_collect_loop_all_ok (results : list Result.t) :
  forallb Result.isOk results = true ->
  forall values,
    ResultHelpers.collect_loop results values
    = Normal (Result.ok (VArray (values ++ List.map Result._value results))).
Proof.
  induction results as [|result rest IH]; intros Hall values; cbn.
  - now rewrite app_nil_r.
  - cbn in Hall. apply andb_prop in Hall as [Hhd Htl].
    unfold Result.isErr, Result.value. unfold Result.isOk in Hhd.
    rewrite Hhd. cbn. rewrite (IH Htl). now rewrite <- app_assoc.
Qed.

Lemma Result_collect_loop_first_err (oks : list Result.t) :
  forallb Result.isOk oks = true ->
  forall failure rest values,
    Result.isErr failure = true ->
    ResultHelpers.collect_loop (oks ++ failure :: rest) values = Normal failure.
Proof.
  induction oks as [|result more IH]; intros Hall failure rest values Hfail; cbn.
  - now rewrite Hfail.
  - cbn in Hall. apply andb_prop in Hall as [Hhd Htl].
    unfold Result.isErr at 1. unfold Result.value. unfold Result.isOk in Hhd.
    rewrite Hhd. cbn. now apply IH.
Qed.

(** ** What the Option helpers return in general *)

(** When every element is Present, [collect] returns Present of the payloads
    in input order. *)
Lemma Option_collect_all_some (options : list Option.t) :
  forallb Option.isSome options = true ->
  OptionHelpers.collect options
  = Normal (VOption (Option.some (VArray (List.map Option._value options)))).
Proof.
  intros Hall. unfold OptionHelpers.collect.
  now rewrite (Option_collect_loop_all_some options Hall []).
Qed.

(** At the first element that is not Present, [collect] returns the static
    method [Option.none], whatever follows that element. *)
Lemma Option_collect_first_none (somes : list Option.t) absent rest :
  forallb Option.isSome somes = true ->
  Option.isSome absent = false ->
  OptionHelpers.collect (somes ++ absent :: rest)
  = Normal (VFunction Option_none_method).
Proof.
  intros Hall Habs. unfold OptionHelpers.collect.
  now apply Option_collect_loop_first_none.
Qed.

(** [wrapSync] runs [fn] exactly once: the world after the call is the world
    that one run of [fn] leaves.  A normal result is wrapped in Present; a
    thrown value is dropped and the static method [Option.none] returned. *)
Lemma Option_wrapSync_run {W : Type} (fn : M W val) (w : W) :
  OptionHelpers.wrapSync fn w
  = match fn w with
    | (Normal r, w') => (Normal (VOption (Option.some r)), w')
    | (Throw _, w') => (Normal (VFunction Option_none_method), w')
    end.
Proof.
  unfold OptionHelpers.wrapSync, try_catch, bind, ret.
  destruct (fn w) as [[r | e] w']; reflexivity.
Qed.

(** [findSome] returns the first Present element. *)
Lemma Option_findSome_first (nones : list Option.t) present rest :
  forallb Option.isNone nones = true ->
  Option.isSome present = true ->
  OptionHelpers.findSome (nones ++ present :: rest) = VOption present.
Proof.
  induction nones as [|option more IH]; intros Hall Hp; cbn.
  - now rewrite Hp.
  - cbn in Hall. apply andb_prop in Hall as [Hhd Htl].
    unfold Option.isNone in Hhd. apply negb_true_iff in Hhd.
    unfold Option.isSome at 1. rewrite Hhd. now apply IH.
Qed.

(** Without a Present element, [findSome] returns the static method
    [Option.none]. *)
Lemma Option_findSome_no_some (options : list Option.t) :
  forallb Option.isNone options = true ->
  OptionHelpers.findSome options = VFunction Option_none_method.
Proof.
  induction options as [|option rest IH]; intros Hall; cbn.
  - reflexivity.
  - cbn in Hall. apply andb_prop in Hall as [Hhd Htl].
    unfold Option.isNone in Hhd. apply negb_true_iff in Hhd.
    unfold Option.isSome. rewrite Hhd. now apply IH.
Qed.

(** ** The claims *)

(** C1.  On [collect([Some(1), None(), Some(3)])], the input of the helper
    test "returns None if any option is None", the Option helper [collect]
    does not return an Absent container: it returns the static method
    [Option.none] itself, which is no instance of [Option], and the call
    [result.isNone()] that the test makes on it throws. *)
Theorem Option_collect_returns_none_method :
  let options := [Option.some (VNumber 1); Option.none; Option.some (VNumber 3)] in
  OptionHelpers.collect options = Normal (VFunction Option_none_method)
  /\ OptionHelpers.collect options <> Normal (VOption Option.none)
  /\ instanceof_Option (VFunction Option_none_method) = false
  /\ cbind (OptionHelpers.collect options) call_isNone
     = Throw (VError "TypeError" "isNone is not a function").
Proof.
  cbn. repeat split. discriminate.
Qed.

(** C2.  On [wrapSync(() => { throw new Error('test') })], the input of the
    helper test "wraps throwing function call", the Option helper [wrapSync]
    runs [fn], drops the thrown error and returns the static method
    [Option.none] itself instead of an Absent container; [result.isNone()]
    throws on it. *)
Theorem Option_wrapSync_returns_none_method (W : Type) (w : W) :
  let fn : M W val := throw (new_Error "test") in
  OptionHelpers.wrapSync fn w = (Normal (VFunction Option_none_method), w)
  /\ OptionHelpers.wrapSync fn w <> (Normal (VOption Option.none), w)
  /\ cbind (fst (OptionHelpers.wrapSync fn w)) call_isNone
     = Throw (VError "TypeError" "isNone is not a function").
Proof.
  cbn. repeat split. discriminate.
Qed.

(** C3.  On [findSome([None(), None()])], the input of the helper test
    "returns None if no Some found", [findSome] returns the static method
    [Option.none] itself instead of an Absent container; [result.isNone()]
    throws on it. *)
Theorem Option_findSome_returns_none_method :
  let options := [Option.none; Option.none] in
  OptionHelpers.findSome options = VFunction Option_none_method
  /\ OptionHelpers.findSome options <> VOption Option.none
  /\ instanceof_Option (OptionHelpers.findSome options) = false
  /\ call_isNone (OptionHelpers.findSome options)
     = Throw (VError "TypeError" "isNone is not a function").
Proof.
  cbn. repeat split. discriminate.
Qed.

(** C4.  The Result helper [collect], on a list that starts with Success
    elements [oks]: if a Failure element comes next, that very element is
    returned, whatever follows it; if nothing comes next, the result is
    Success of the array of the payloads of [oks] in input order.  The empty
    list gives Success of the empty array, and
    [collect([Ok(1), Err("e"), Ok(3)])] is [Err("e")]. *)
Theorem Result_collect_spec (oks : list Result.t)
  (Hoks : forallb Result.isOk oks = true) :
  (forall v e rest,
      ResultHelpers.collect (oks ++ new_Result false v e :: rest)
      = Normal (new_Result false v e))
  /\ (forall e rest,
         ResultHelpers.collect (oks ++ Result.err e :: rest)
         = Normal (Result.err e))
  /\ ResultHelpers.collect oks
     = Normal (Result.ok (VArray (List.map Result._value oks)))
  /\ ResultHelpers.collect [] = Normal (Result.ok (VArray []))
  /\ ResultHelpers.collect
       [Result.ok (VNumber 1); Result.err (VString "e"); Result.ok (VNumber 3)]
     = Normal (Result.err (VString "e")).
Proof.
  unfold ResultHelpers.collect.
  split; [|split; [|split; [|split]]].
  - intros v e rest. now apply Result_collect_loop_first_err.
  - intros e rest. now apply Result_collect_loop_first_err.
  - now rewrite (Result_collect_loop_all_ok oks Hoks []).
  - reflexivity.
  - reflexivity.
Qed.

Lemma Result_collect_spec_witness :
  ResultHelpers.collect
    ([Result.ok (VNumber 1); Result.ok (VNumber 2)]
       ++ Result.err (VString "late") :: [Result.err (VString "later")])
  = Normal (Result.err (VString "late"))
  /\ ResultHelpers.collect [Result.ok (VNumber 1); Result.ok (VNumber 2)]
     = Normal (Result.ok (VArray [VNumber 1; VNumber 2])).
Proof.
  pose proof (Result_collect_spec
                [Result.ok (VNumber 1); Result.ok (VNumber 2)] eq_refl)
    as (_ & Herr & Hall & _).
  split; [apply Herr | exact Hall].
Defined.






(** C6.  [fromNullable] gives Absent for [null] and for [undefined], and
    Present of the argument for every other value; in particular for [0],
    [false] and the empty string. *)
Theorem fromNullable_spec :
  (forall v,
      Option.fromNullable v
      = match v with
        | VNull | VUndefined => Option.none
        | _ => Option.some v
        end)
  /\ Option.fromNullable VNull = Option.none
  /\ Option.fromNullable VUndefined = Option.none
  /\ Option.fromNullable (VNumber 0) = Option.some (VNumber 0)
  /\ Option.fromNullable (VBool false) = Option.some (VBool false)
  /\ Option.fromNullable (VString "") = Option.some (VString "").
Proof.
  repeat split. intros v. destruct v; reflexivity.
Qed.

(** C7.  Functor identity law.  For every Option [x], [x.map(identity)]
    returns normally, leaves the world alone and is observationally equal to
    [x]; it is [Some(v)] on [Some(v)] and [None()] on [None()].  For every
    Result [x], [x.map(identity)] likewise is observationally equal to [x]; it
    is [Ok(v)] on [Ok(v)] and [Err(e)], with the same error, on [Err(e)]. *)
Theorem map_identity (W : Type) (w : W) :
  (forall x : Option.t,
      exists y, Option.map x identity w = (Normal y, w) /\ Option_obs_eq y x)
  /\ (forall v, Option.map (Option.some v) identity w
                = (Normal (Option.some v), w))
  /\ Option.map Option.none identity w = (Normal Option.none, w)
  /\ (forall x : Result.t,
         exists y, Result.map x identity w = (Normal y, w) /\ Result_obs_eq y x)
  /\ (forall v, Result.map (Result.ok v) identity w
                = (Normal (Result.ok v), w))
  /\ (forall e, Result.map (Result.err e) identity w
                = (Normal (Result.err e), w)).
Proof.
  split; [|split; [|split; [|split; [|split]]]]; try reflexivity.
  - intros [[] v]; eexists; (split; [reflexivity|]); split; reflexivity.
  - intros [[] v e]; eexists; (split; [reflexivity|]); repeat split.
Qed.

(** C8.  Short-circuit laws.  [None().and(other)] is [None()] and
    [Err(e).and(other)] is [Err(e)], for every [other]; [Some(v).or(other)]
    is [Some(v)] and [Ok(v).or(other)] is [Ok(v)], for every [other].  The
    same holds of any instance with that discriminant. *)
Theorem and_or_short_circuit :
  (forall other, Option.and Option.none other = Option.none)
  /\ (forall e other, Result.and (Result.err e) other = Result.err e)
  /\ (forall v other, Option.or (Option.some v) other = Option.some v)
  /\ (forall v other, Result.or (Result.ok v) other = Result.ok v)
  /\ (forall v other, Option.and (new_Option false v) other = Option.none)
  /\ (forall v e other,
         Result.and (new_Result false v e) other = new_Result false v e)
  /\ (forall v e other,
         Result.or (new_Result true v e) other = new_Result true v e).
Proof.
  repeat split.
Qed.

(** C9.  Bind associativity.  For every Option [x] and all callbacks [f] and
    [g] that return Options (and that may throw and change the world),
    [x.andThen(f).andThen(g)] and [x.andThen(v => f(v).andThen(g))] end in the
    same completion and the same world; likewise for Result. *)
Theorem andThen_assoc (W : Type) (w : W) :
  (forall (x : Option.t) (f g : val -> M W Option.t),
      bind (Option.andThen x f) (fun y => Option.andThen y g) w
      = Option.andThen x (fun v => bind (f v) (fun y => Option.andThen y g)) w)
  /\ (forall (x : Result.t) (f g : val -> M W Result.t),
         bind (Result.andThen x f) (fun y => Result.andThen y g) w
         = Result.andThen x (fun v => bind (f v) (fun y => Result.andThen y g)) w).
Proof.
  split.
  - intros [[] v] f g; reflexivity.
  - intros [[] v e] f g; reflexivity.
Qed.

(** C10.  [Some(v)] is Present, with [isSome()] true and [unwrap()] returning
    [v], also when [v] is [null] or [undefined].  For every Option [x] other
    than [Some(null)] and [Some(undefined)], both
    [fromNullable(x.toNullable())] and [fromNullable(x.toUndefined())] are
    observationally equal to [x]; on [Some(null)] and [Some(undefined)] both
    round trips give [None()]. *)
Theorem nullable_round_trip (x : Option.t)
  (Hx : Option.isSome x = true -> loose_eq_null (Option._value x) = false) :
  (forall v, Option.isSome (Option.some v) = true
             /\ Option.isNone (Option.some v) = false
             /\ Option.unwrap (Option.some v) = Normal v)
  /\ Option.unwrap (Option.some VNull) = Normal VNull
  /\ Option.unwrap (Option.some VUndefined) = Normal VUndefined
  /\ Option_obs_eq (Option.fromNullable (Option.toNullable x)) x
  /\ Option_obs_eq (Option.fromNullable (Option.toUndefined x)) x
  /\ Option.fromNullable (Option.toNullable (Option.some VNull)) = Option.none
  /\ Option.fromNullable (Option.toNullable (Option.some VUndefined)) = Option.none
  /\ Option.fromNullable (Option.toUndefined (Option.some VNull)) = Option.none
  /\ Option.fromNullable (Option.toUndefined (Option.some VUndefined)) = Option.none.
Proof.
  repeat match goal with |- _ /\ _ => split end; try reflexivity.
  - intros v. repeat split.
  - destruct x as [[] v]; cbn in *.
    + unfold Option.fromNullable. rewrite (Hx eq_refl). apply Option_obs_eq_refl.
    + split; reflexivity.
  - destruct x as [[] v]; cbn in *.
    + unfold Option.fromNullable. rewrite (Hx eq_refl). apply Option_obs_eq_refl.
    + split; reflexivity.
Qed.

Lemma nullable_round_trip_witness :
  Option_obs_eq
    (Option.fromNullable (Option.toNullable (Option.some (VNumber 42))))
    (Option.some (VNumber 42))
  /\ Option_obs_eq (Option.fromNullable (Option.toNullable Option.none))
                   Option.none.
Proof.
  split.
  - apply (nullable_round_trip (Option.some (VNumber 42))). reflexivity.
  - apply (nullable_round_trip Option.none). discriminate.
Defined.

(** ** The helper tests and the examples of the specification, evaluated *)

Example Option_collect_all_present :
  OptionHelpers.collect
    [Option.some (VNumber 1); Option.some (VNumber 2); Option.some (VNumber 3)]
  = Normal (VOption (Option.some (VArray [VNumber 1; VNumber 2; VNumber 3]))).
Proof. reflexivity. Qed.

Example Option_collect_empty :
  OptionHelpers.collect [] = Normal (VOption (Option.some (VArray []))).
Proof. reflexivity. Qed.

Example Option_findSome_second :
  OptionHelpers.findSome
    [Option.none; Option.some (VNumber 42); Option.some (VNumber 84)]
  = VOption (Option.some (VNumber 42)).
Proof. reflexivity. Qed.

Example Option_transpose_mixed :
  OptionHelpers.transpose
    [Option.some (VNumber 1); Option.none; Option.some (VNumber 3)]
  = Normal [VNumber 1; VNumber 3].
Proof. reflexivity. Qed.

(** One call of [wrapSync] is one call of [fn]. *)
Example Option_wrapSync_calls_once :
  OptionHelpers.wrapSync (counting (VNumber 42)) 0
  = (Normal (VOption (Option.some (VNumber 42))), 1)
  /\ OptionHelpers.wrapSync (counting_thrower (new_Error "test")) 0
     = (Normal (VFunction Option_none_method), 1).
Proof. split; reflexivity. Qed.

(** The Result helper keeps the thrown value as the Failure payload. *)
Lemma Result_wrapSync_run {W : Type} (fn : M W val) (w : W) :
  ResultHelpers.wrapSync fn w
  = match fn w with
    | (Normal r, w') => (Normal (Result.ok r), w')
    | (Throw e, w') => (Normal (Result.err e), w')
    end.
Proof.
  unfold ResultHelpers.wrapSync, try_catch, bind, ret.
  destruct (fn w) as [[r | e] w']; reflexivity.
Qed.

Example Result_wrapSync_calls_once :
  ResultHelpers.wrapSync (counting (VNumber 42)) 0
  = (Normal (Result.ok (VNumber 42)), 1)
  /\ ResultHelpers.wrapSync (counting_thrower (new_Error "test error")) 0
     = (Normal (Result.err (new_Error "test error")), 1).
Proof. split; reflexivity. Qed.

Example ToString_samples (source_text : funref -> string)
  (number_text : Z -> string) :
  ToString source_text number_text (VNumber (-42)) = Normal "-42"
  /\ ToString source_text number_text (VNumber (2 ^ 53))
     = Normal "9007199254740992"
  /\ ToString source_text number_text (VNumber (10 ^ 21))
     = Normal (number_text (10 ^ 21)%Z)
  /\ ToString source_text number_text (VArray [VNumber 1; VNull; VString "a"])
     = Normal "1,,a"
  /\ ToString source_text number_text (VArray [VNumber 1; VSymbol "s"])
     = Throw symbol_TypeError
  /\ ToString source_text number_text (new_Error "boom") = Normal "Error: boom"
  /\ ToString source_text number_text (VResult (Result.err VNull))
     = Normal "[object Object]".
Proof. repeat split. Qed.

(** * Further properties of the helpers *)

Lemma array_map_value_present (options : list Option.t) :
  forallb Option.isSome options = true ->
  OptionHelpers.array_map Option.value options
  = Normal (List.map Option._value options).
Proof.
  induction options as [|[[] v] rest IH]; cbn; intros Hall.
  - reflexivity.
  - now rewrite (IH Hall).
  - discriminate.
Qed.

Lemma filter_isSome_present (options : list Option.t) :
  forallb Option.isSome (List.filter Option.isSome options) = true.
Proof.
  apply forallb_forall. intros o Ho. now apply filter_In in Ho.
Qed.

(** [transpose] as a filter followed by a projection. *)
Lemma transpose_filter_map (options : list Option.t) :
  OptionHelpers.transpose options
  = Normal (List.map Option._value (List.filter Option.isSome options)).
Proof.
  unfold OptionHelpers.transpose.
  apply array_map_value_present, filter_isSome_present.
Qed.

(** X1.  [transpose] never throws: for every list it returns the payloads of
    exactly the Present elements, in input order, so never more entries than
    the list has elements.  An Absent element contributes nothing and does
    not stop the scan: [transpose] of a concatenation is the concatenation
    of the two results. *)
Theorem transpose_spec :
  (forall options,
      OptionHelpers.transpose options
      = Normal (List.map Option._value (List.filter Option.isSome options)))
  /\ (forall options, exists l,
         OptionHelpers.transpose options = Normal l
         /\ List.length l <= List.length options)
  /\ (forall v, OptionHelpers.transpose [new_Option false v] = Normal [])
  /\ (forall l1 l2 : list Option.t,
         OptionHelpers.transpose (l1 ++ l2)
         = cbind (OptionHelpers.transpose l1)
                 (fun a => cbind (OptionHelpers.transpose l2)
                                 (fun b => Normal (a ++ b)%list))).
Proof.
  split; [exact transpose_filter_map | split; [|split]].
  - intros options. eexists. split; [apply transpose_filter_map|].
    rewrite length_map. apply filter_length_le.
  - reflexivity.
  - intros l1 l2. rewrite !transpose_filter_map. cbn.
    now rewrite filter_app, map_app.
Qed.

(** X2.  When every element is Present, [collect] and [transpose] agree: the
    array inside the Present result of [collect] is the result of
    [transpose], and it has one entry per element. *)
Theorem Option_collect_transpose (options : list Option.t)
  (Hall : forallb Option.isSome options = true) :
  exists l,
    OptionHelpers.transpose options = Normal l
    /\ OptionHelpers.collect options = Normal (VOption (Option.some (VArray l)))
    /\ List.length l = List.length options.
Proof.
  exists (List.map Option._value options). split; [|split].
  - unfold OptionHelpers.transpose.
    rewrite (array_map_value_present _ (filter_isSome_present options)).
    do 2 f_equal. clear -Hall.
    induction options as [|o rest IH]; cbn in *; [reflexivity|].
    apply andb_prop in Hall as [-> Hrest]. now rewrite (IH Hrest).
  - now apply Option_collect_all_some.
  - apply length_map.
Qed.

Lemma Option_collect_transpose_witness :
  exists l,
    OptionHelpers.transpose [Option.some (VString "a"); Option.some VNull]
    = Normal l
    /\ OptionHelpers.collect [Option.some (VString "a"); Option.some VNull]
       = Normal (VOption (Option.some (VArray l)))
    /\ List.length l = 2.
Proof.
  exact (Option_collect_transpose
           [Option.some (VString "a"); Option.some VNull] eq_refl).
Defined.

(** X3.  The Option helper [collect] never throws, whatever the list, and
    what it returns is a Present instance exactly when every element of the
    list is Present. *)
Theorem Option_collect_never_throws (options : list Option.t) :
  exists r,
    OptionHelpers.collect options = Normal r
    /\ match r with
       | VOption o => Option.isSome o
       | _ => false
       end = forallb Option.isSome options.
Proof.
  unfold OptionHelpers.collect. generalize (@nil val) as values.
  induction options as [|[[] v] rest IH]; intros values; cbn.
  - eexists; split; reflexivity.
  - apply IH.
  - eexists; split; reflexivity.
Qed.

(** X4.  The Result helper [collect] never throws.  It returns the first
    element for which [isErr()] holds, when there is one, and otherwise
    Success of the array of all payloads; so the result is a Success exactly
    when every element is, and a Failure result is an element of the input. *)
Theorem Result_collect_find (results : list Result.t) :
  ResultHelpers.collect results
  = Normal match List.find Result.isErr results with
           | Some failure => failure
           | None => Result.ok (VArray (List.map Result._value results))
           end
  /\ (exists r,
         ResultHelpers.collect results = Normal r
         /\ Result.isOk r = forallb Result.isOk results
         /\ (Result.isErr r = true -> In r results)).
Proof.
  assert (Hloop : forall values,
             ResultHelpers.collect_loop results values
             = Normal match List.find Result.isErr results with
                      | Some failure => failure
                      | None => Result.ok
                                  (VArray (values ++ List.map Result._value results))
                      end).
  { induction results as [|[[] v e] rest IH]; intros values; cbn.
    - now rewrite app_nil_r.
    - rewrite IH. now rewrite <- app_assoc.
    - reflexivity. }
  split; [apply (Hloop []) | ].
  unfold ResultHelpers.collect. rewrite (Hloop []). cbn.
  eexists; split; [reflexivity|]. clear Hloop.
  destruct (List.find Result.isErr results) as [failure|] eqn:Hfind.
  - apply find_some in Hfind as [Hin Herr]. split; [|auto].
    unfold Result.isErr in Herr. apply negb_true_iff in Herr.
    unfold Result.isOk at 1. rewrite Herr. symmetry.
    destruct (forallb Result.isOk results) eqn:Hall; [|reflexivity].
    rewrite forallb_forall in Hall. specialize (Hall _ Hin).
    unfold Result.isOk in Hall. congruence.
  - split; [|discriminate]. cbn. symmetry. apply forallb_forall.
    intros r Hin. pose proof (find_none _ _ Hfind _ Hin) as Hr.
    unfold Result.isErr in Hr. now apply negb_false_iff in Hr.
Qed.

(** X5.  When [findSome] returns an Option instance, that instance is
    Present, it is an element of the list, and its payload is the first
    entry of [transpose] of the same list. *)
Theorem findSome_head_of_transpose (options : list Option.t) (o : Option.t)
  (Hfound : OptionHelpers.findSome options = VOption o) :
  Option.isSome o = true
  /\ In o options
  /\ exists others,
      OptionHelpers.transpose options = Normal (Option._value o :: others).
Proof.
  rewrite transpose_filter_map.
  induction options as [|[[] v] rest IH]; cbn in *.
  - discriminate.
  - injection Hfound as <-. repeat split; eauto.
  - destruct (IH Hfound) as (Hs & Hin & others & Ht).
    repeat split; eauto.
Qed.

Lemma findSome_head_of_transpose_witness :
  Option.isSome (Option.some (VNumber 42)) = true
  /\ In (Option.some (VNumber 42))
        [Option.none; Option.some (VNumber 42); Option.some (VNumber 84)]
  /\ exists others,
      OptionHelpers.transpose
        [Option.none; Option.some (VNumber 42); Option.some (VNumber 84)]
      = Normal (Option._value (Option.some (VNumber 42)) :: others).
Proof.
  exact (findSome_head_of_transpose
           [Option.none; Option.some (VNumber 42); Option.some (VNumber 84)]
           (Option.some (VNumber 42)) eq_refl).
Defined.

(** X6.  Wrapping and collecting are inverse: on a list of [Some(v)]
    built from the values [vs], [collect] gives Present of the array [vs] and
    [transpose] gives [vs]; on a list of [Ok(v)] the Result helper [collect]
    gives Success of the array [vs], which [unwrap] hands back. *)
Theorem collect_of_wrapped (vs : list val) (source_text : funref -> string)
  (number_text : Z -> string) :
  OptionHelpers.collect (List.map Option.some vs)
  = Normal (VOption (Option.some (VArray vs)))
  /\ OptionHelpers.transpose (List.map Option.some vs) = Normal vs
  /\ ResultHelpers.collect (List.map Result.ok vs)
     = Normal (Result.ok (VArray vs))
  /\ cbind (ResultHelpers.collect (List.map Result.ok vs))
           (Result.unwrap source_text number_text)
     = Normal (VArray vs).
Proof.
  assert (Hsome : forallb Option.isSome (List.map Option.some vs) = true).
  { apply forallb_forall. intros o Ho. apply in_map_iff in Ho as (v & <- & _).
    reflexivity. }
  assert (Hok : forallb Result.isOk (List.map Result.ok vs) = true).
  { apply forallb_forall. intros o Ho. apply in_map_iff in Ho as (v & <- & _).
    reflexivity. }
  assert (Hv : List.map Option._value (List.map Option.some vs) = vs).
  { rewrite map_map. apply map_id. }
  assert (Hr : List.map Result._value (List.map Result.ok vs) = vs).
  { rewrite map_map. apply map_id. }
  assert (Hc : ResultHelpers.collect (List.map Result.ok vs)
               = Normal (Result.ok (VArray vs))).
  { unfold ResultHelpers.collect.
    rewrite (Result_collect_loop_all_ok _ Hok []). cbn. now rewrite Hr. }
  split; [|split; [|split]].
  - rewrite (Option_collect_all_some _ Hsome). now rewrite Hv.
  - rewrite transpose_filter_map.
    f_equal. rewrite <- Hv at 2. f_equal.
    clear. induction vs as [|v rest IH]; cbn; [reflexivity | now rewrite IH].
  - exact Hc.
  - rewrite Hc. reflexivity.
Qed.

(** * Further properties of the two classes *)

(** Runs the callbacks that the goal calls, one case per way they can end. *)
Ltac run_calls :=
  unfold Option.map, Option.mapOr, Option.mapOrElse, Option.andThen,
    Option.orElse, Option.filter, Option.unwrapOrElse,
    Result.map, Result.mapErr, Result.andThen, Result.orElse,
    Result.unwrapOrElse, bind, ret, throw;
  cbn;
  repeat match goal with
         | |- context [match ?call with pair _ _ => _ end] =>
             lazymatch call with
             | ?callback _ _ => is_var callback
             | ?thunk _ => is_var thunk
             end;
             destruct call as [[?|?] ?]; cbn
         end.

(** X7.  Functor composition.  Mapping [f] and then [g] is mapping
    [v => g(f(v))], for callbacks that may throw and change the world: both
    ways end in the same completion and the same world.  This holds of
    [Option.map], of [Result.map] and of [Result.mapErr]. *)
Theorem map_compose (W : Type) (f g : val -> M W val) (w : W) :
  (forall x : Option.t,
      bind (Option.map x f) (fun y => Option.map y g) w
      = Option.map x (fun v => bind (f v) g) w)
  /\ (forall x : Result.t,
         bind (Result.map x f) (fun y => Result.map y g) w
         = Result.map x (fun v => bind (f v) g) w)
  /\ (forall x : Result.t,
         bind (Result.mapErr x f) (fun y => Result.mapErr y g) w
         = Result.mapErr x (fun e => bind (f e) g) w).
Proof.
  split; [|split].
  - intros [[] v]; run_calls; reflexivity.
  - intros [[] v e]; run_calls; reflexivity.
  - intros [[] v e]; run_calls; reflexivity.
Qed.

(** X8.  On a Result, [map] and [mapErr] commute: [x.map(f).mapErr(g)] and
    [x.mapErr(g).map(f)] end in the same completion and the same world, since
    only the callback of the active side is ever called.  [mapErr] with the
    identity gives back an observationally equal Result. *)
Theorem Result_map_mapErr_commute (W : Type) (f g : val -> M W val) (w : W) :
  (forall x : Result.t,
      bind (Result.map x f) (fun y => Result.mapErr y g) w
      = bind (Result.mapErr x g) (fun y => Result.map y f) w)
  /\ (forall v e, Result.map (new_Result false v e) f w
                  = (Normal (new_Result false v e), w))
  /\ (forall v e, Result.mapErr (new_Result true v e) g w
                  = (Normal (new_Result true v e), w))
  /\ (forall x : Result.t,
         exists y, Result.mapErr x identity w = (Normal y, w)
                   /\ Result_obs_eq y x).
Proof.
  split; [|split; [|split]]; try reflexivity.
  - intros [[] v e]; run_calls; reflexivity.
  - intros [[] v e]; eexists; (split; [reflexivity|]); repeat split.
Qed.

(** X9.  Identity laws of the two binds.  [Some(v).andThen(f)] is [f(v)] and
    [x.andThen(Some)] is observationally [x]; [Ok(v).andThen(f)] is [f(v)]
    and [x.andThen(Ok)] is observationally [x]; [Err(e).orElse(f)] is [f(e)]
    and [x.orElse(Err)] is observationally [x].  On the other variant the
    callback is not called: the world is left as it was. *)
Theorem bind_identities (W : Type) (w : W) :
  (forall v (f : val -> M W Option.t),
      Option.andThen (Option.some v) f w = f v w)
  /\ (forall x : Option.t,
         exists y, Option.andThen x (fun v => ret (Option.some v)) w
                   = (Normal y, w) /\ Option_obs_eq y x)
  /\ (forall v (f : val -> M W Option.t),
         Option.andThen (new_Option false v) f w = (Normal Option.none, w))
  /\ (forall v (f : val -> M W Result.t),
         Result.andThen (Result.ok v) f w = f v w)
  /\ (forall x : Result.t,
         exists y, Result.andThen x (fun v => ret (Result.ok v)) w
                   = (Normal y, w) /\ Result_obs_eq y x)
  /\ (forall e (f : val -> M W Result.t),
         Result.andThen (Result.err e) f w = (Normal (Result.err e), w))
  /\ (forall e (f : val -> M W Result.t),
         Result.orElse (Result.err e) f w = f e w)
  /\ (forall x : Result.t,
         exists y, Result.orElse x (fun e => ret (Result.err e)) w
                   = (Normal y, w) /\ Result_obs_eq y x)
  /\ (forall v (f : val -> M W Result.t),
         Result.orElse (Result.ok v) f w = (Normal (Result.ok v), w)).
Proof.
  repeat match goal with |- _ /\ _ => split end; try reflexivity.
  - intros [[] v]; eexists; (split; [reflexivity|]); split; reflexivity.
  - intros [[] v e]; eexists; (split; [reflexivity|]); repeat split.
  - intros [[] v e]; eexists; (split; [reflexivity|]); repeat split.
Qed.

(** X10.  [orElse] is associative, on Option and on Result:
    [x.orElse(f).orElse(g)] and [x.orElse(() => f().orElse(g))] end in the
    same completion and the same world. *)
Theorem orElse_assoc (W : Type) (w : W) :
  (forall (x : Option.t) (f g : M W Option.t),
      bind (Option.orElse x f) (fun y => Option.orElse y g) w
      = Option.orElse x (bind f (fun y => Option.orElse y g)) w)
  /\ (forall (x : Result.t) (f g : val -> M W Result.t),
         bind (Result.orElse x f) (fun y => Result.orElse y g) w
         = Result.orElse x (fun e => bind (f e) (fun y => Result.orElse y g)) w).
Proof.
  split.
  - intros [[] v] f g; reflexivity.
  - intros [[] v e] f g; reflexivity.
Qed.

(** X11.  The eager combinators are instances of the lazy ones, on Option:
    [x.and(other)] is [x.andThen(() => other)], [x.or(other)] is
    [x.orElse(() => other)], [x.map(f)] is [x.andThen(v => Some(f(v)))] and
    [x.unwrapOr(d)] is [x.unwrapOrElse(() => d)]. *)
Theorem Option_eager_as_lazy (W : Type) (x : Option.t) (w : W) :
  (forall other,
      Option.andThen x (fun _ => ret other) w = (Normal (Option.and x other), w))
  /\ (forall other,
         Option.orElse x (ret other) w = (Normal (Option.or x other), w))
  /\ (forall f : val -> M W val,
         Option.map x f w
         = Option.andThen x (fun v => bind (f v) (fun r => ret (Option.some r))) w)
  /\ (forall d,
         Option.unwrapOrElse x (ret d) w = (Normal (Option.unwrapOr x d), w)).
Proof.
  destruct x as [[] v]; repeat split.
Qed.

(** X12.  The eager combinators are instances of the lazy ones, on Result:
    [x.and(other)] is [x.andThen(() => other)], [x.or(other)] is
    [x.orElse(() => other)], [x.map(f)] is [x.andThen(v => Ok(f(v)))],
    [x.mapErr(f)] is [x.orElse(e => Err(f(e)))] and [x.unwrapOr(d)] is
    [x.unwrapOrElse(() => d)]. *)
Theorem Result_eager_as_lazy (W : Type) (x : Result.t) (w : W) :
  (forall other,
      Result.andThen x (fun _ => ret other) w = (Normal (Result.and x other), w))
  /\ (forall other,
         Result.orElse x (fun _ => ret other) w = (Normal (Result.or x other), w))
  /\ (forall f : val -> M W val,
         Result.map x f w
         = Result.andThen x (fun v => bind (f v) (fun r => ret (Result.ok r))) w)
  /\ (forall f : val -> M W val,
         Result.mapErr x f w
         = Result.orElse x (fun e => bind (f e) (fun r => ret (Result.err r))) w)
  /\ (forall d,
         Result.unwrapOrElse x (fun _ => ret d) w
         = (Normal (Result.unwrapOr x d), w)).
Proof.
  destruct x as [[] v e]; repeat split.
Qed.

(** X13.  [x.mapOr(d, f)] is [x.map(f).unwrapOr(d)], and
    [x.mapOrElse(defaultFn, f)] is [x.map(f).unwrapOrElse(defaultFn)]: same
    completion and same world, for callbacks that may throw and change the
    world.  So [f] runs only on Present and [defaultFn] only on Absent. *)
Theorem mapOr_as_map_unwrapOr (W : Type) (x : Option.t)
  (f : val -> M W val) (w : W) :
  (forall d,
      Option.mapOr x d f w
      = bind (Option.map x f) (fun y => ret (Option.unwrapOr y d)) w)
  /\ (forall defaultFn : M W val,
         Option.mapOrElse x defaultFn f w
         = bind (Option.map x f) (fun y => Option.unwrapOrElse y defaultFn) w).
Proof.
  destruct x as [[] v]; split; intros; run_calls; reflexivity.
Qed.

(** X14.  Filtering by [p] and then by [q] is filtering by the short-circuit
    conjunction [v => p(v) && q(v)]: same completion and same world, for
    predicates that may throw and change the world. *)
Theorem filter_compose (W : Type) (x : Option.t)
  (p q : val -> M W bool) (w : W) :
  bind (Option.filter x p) (fun y => Option.filter y q) w
  = Option.filter x
      (fun v => bind (p v) (fun keep => if keep then q v else ret false)) w.
Proof.
  destruct x as [[] v]; unfold Option.filter; cbn; unfold bind, ret; cbn.
  - destruct (p v w) as [[[]|e] w1]; cbn; [|reflexivity|reflexivity].
    destruct (q v w1) as [[[]|e] w2]; reflexivity.
  - reflexivity.
Qed.

(** X15.  [filter] never makes up a value: when it returns, the result is
    the receiver itself if it is Present, and [None()] otherwise.  The
    predicate is not called on an Absent receiver. *)
Theorem filter_result (W : Type) (x y : Option.t)
  (p : val -> M W bool) (w w' : W)
  (Hrun : Option.filter x p w = (Normal y, w')) :
  (Option.isSome y = true -> y = x /\ Option.isSome x = true)
  /\ (Option.isSome y = false -> y = Option.none)
  /\ (Option.isSome x = false -> w' = w).
Proof.
  destruct x as [[] v]; unfold Option.filter in Hrun; cbn in Hrun;
    unfold bind, ret in Hrun; cbn in Hrun.
  - destruct (p v w) as [[[]|e] w1]; cbn in Hrun; inversion Hrun; subst;
      cbn; repeat split; try discriminate; auto.
  - inversion Hrun; subst; cbn; repeat split; try discriminate; auto.
Qed.

Lemma filter_result_witness :
  Option.filter (Option.some (VNumber 42)) (fun _ => ret true) tt
  = (Normal (Option.some (VNumber 42)), tt)
  /\ Option.some (VNumber 42) = Option.some (VNumber 42)
  /\ Option.isSome (Option.some (VNumber 42)) = true.
Proof.
  split; [reflexivity|].
  apply (filter_result unit (Option.some (VNumber 42)) (Option.some (VNumber 42))
           (fun _ => ret true) tt tt); reflexivity.
Defined.

(** X16.  [and] and [or] on Options behave as conjunction and disjunction of
    presence: both are associative, [isSome] of [a.and(b)] is the conjunction
    and of [a.or(b)] the disjunction of the two [isSome], [None()] is a left
    unit of [or] and, observationally, a right unit, and both are
    idempotent ([a.and(a)] observationally). *)
Theorem Option_and_or_algebra (a b c : Option.t) :
  Option.and (Option.and a b) c = Option.and a (Option.and b c)
  /\ Option.or (Option.or a b) c = Option.or a (Option.or b c)
  /\ Option.isSome (Option.and a b) = Option.isSome a && Option.isSome b
  /\ Option.isSome (Option.or a b) = Option.isSome a || Option.isSome b
  /\ Option.or Option.none b = b
  /\ Option_obs_eq (Option.or a Option.none) a
  /\ Option_obs_eq (Option.and a a) a
  /\ Option.or a a = a.
Proof.
  destruct a as [[] va], b as [[] vb], c as [[] vc]; cbn;
    repeat split; reflexivity.
Qed.

(** X17.  [and] and [or] on Results are associative and idempotent; [isOk]
    of [a.and(b)] is the conjunction and of [a.or(b)] the disjunction of the
    two [isOk]; [a.and(b)] is [a] itself when [a] is a Failure and [b]
    otherwise, and [a.or(b)] is [a] itself when [a] is a Success and [b]
    otherwise. *)
Theorem Result_and_or_algebra (a b c : Result.t) :
  Result.and (Result.and a b) c = Result.and a (Result.and b c)
  /\ Result.or (Result.or a b) c = Result.or a (Result.or b c)
  /\ Result.isOk (Result.and a b) = Result.isOk a && Result.isOk b
  /\ Result.isOk (Result.or a b) = Result.isOk a || Result.isOk b
  /\ Result.and a b = (if Result.isErr a then a else b)
  /\ Result.or a b = (if Result.isOk a then a else b)
  /\ Result.and a a = a
  /\ Result.or a a = a.
Proof.
  destruct a as [[] va ea], b as [[] vb eb], c as [[] vc ec]; cbn;
    repeat split; reflexivity.
Qed.

(** X18.  On an Option, [unwrap], the getter [value] and [expect] succeed on
    the same instances with the same payload and throw on the same instances;
    they differ only in the message: [unwrap] is [expect] with the message
    "Called unwrap on a None value" and [value] is [expect] with "Called value
    on a None option".  [unwrapOr], [toNullable] and [toUndefined] never
    throw: they return what [unwrap] returns, or else the default, [null] and
    [undefined]. *)
Theorem Option_unwrap_family (x : Option.t) :
  Option.unwrap x = Option.expect x "Called unwrap on a None value"
  /\ Option.value x = Option.expect x "Called value on a None option"
  /\ (forall message,
         match Option.expect x message with
         | Normal v => Option.isSome x = true /\ Option.unwrap x = Normal v
         | Throw e => Option.isNone x = true /\ e = new_Error message
         end)
  /\ (forall d,
         Option.unwrapOr x d
         = match Option.unwrap x with Normal v => v | Throw _ => d end)
  /\ Option.toNullable x = Option.unwrapOr x VNull
  /\ Option.toUndefined x = Option.unwrapOr x VUndefined.
Proof.
  destruct x as [[] v]; cbn; repeat split.
Qed.

(** X19.  On a Result, exactly one of the getters [value] and [error]
    throws, with the messages "Called value on an Err result" and "Called
    error on an Ok result", and the getter [ok] agrees with [isOk()].
    [unwrap] is [expect] with the message "Called unwrap on an Err value".
    [expect] on [Err(e)] converts [e] to a string first: when that gives a
    string, it throws an error with the message, a colon and a space, and
    that string; when the conversion throws (on a symbol), that is what
    [expect] throws.  [unwrapOr] never throws: it returns what [unwrap]
    returns, or else the default. *)
Theorem Result_unwrap_family (source_text : funref -> string)
  (number_text : Z -> string) (x : Result.t) :
  match Result.value x, Result.error x with
  | Normal v, Throw e =>
      Result.isOk x = true /\ e = new_Error "Called error on an Ok result"
      /\ Result.unwrap source_text number_text x = Normal v
  | Throw e, Normal _ =>
      Result.isErr x = true /\ e = new_Error "Called value on an Err result"
  | _, _ => False
  end
  /\ Result.ok' x = Result.isOk x
  /\ Result.unwrap source_text number_text x
     = Result.expect source_text number_text x "Called unwrap on an Err value"
  /\ (forall message e form,
         ToString source_text number_text e = Normal form ->
         Result.expect source_text number_text (Result.err e) message
         = Throw (new_Error (message ++ ": " ++ form)))
  /\ (forall message e thrown,
         ToString source_text number_text e = Throw thrown ->
         Result.expect source_text number_text (Result.err e) message
         = Throw thrown)
  /\ (forall message d,
         Result.expect source_text number_text (Result.err (VSymbol d)) message
         = Throw symbol_TypeError)
  /\ (forall message v,
         Result.expect source_text number_text (Result.ok v) message = Normal v)
  /\ (forall d,
         Result.unwrapOr x d
         = match Result.unwrap source_text number_text x with
           | Normal v => v
           | Throw _ => d
           end).
Proof.
  repeat match goal with |- _ /\ _ => split end; try reflexivity.
  - destruct x as [[] v e]; cbn; repeat split.
  - intros message e form Hform. cbn. now rewrite Hform.
  - intros message e thrown Hthrown. cbn. now rewrite Hthrown.
  - intros d. destruct x as [[] v e]; cbn; [reflexivity|].
    destruct (ToString source_text number_text e); reflexivity.
Qed.

(** X20.  The Result helper [wrapSync] never throws and returns an instance
    that a factory built.  It loses nothing: unwrapping its result with a
    handler that throws the error again, [wrapSync(fn).unwrapOrElse(e => {
    throw e })], ends in the completion and the world of [fn()] itself. *)
Theorem Result_wrapSync_round_trip (W : Type) (fn : M W val) (w : W) :
  (exists r w', ResultHelpers.wrapSync fn w = (Normal r, w') /\ Result_built r)
  /\ bind (ResultHelpers.wrapSync fn) (fun r => Result.unwrapOrElse r throw) w
     = fn w
  /\ Result.isOk
       match fst (ResultHelpers.wrapSync fn w) with
       | Normal r => r
       | Throw e => Result.err e
       end
     = match fst (fn w) with Normal _ => true | Throw _ => false end.
Proof.
  unfold ResultHelpers.wrapSync, try_catch, bind, ret, throw.
  destruct (fn w) as [[r|e] w1]; cbn; repeat split;
    do 2 eexists; (split; [reflexivity | constructor]).
Qed.

(** X21.  From a nullable value and back: [fromNullable(v).toNullable()] is
    [v], except that [undefined] comes back as [null];
    [fromNullable(v).toUndefined()] is [v], except that [null] comes back as
    [undefined]; [fromNullable(v).unwrapOr(d)] is [v] unless [v] is [null] or
    [undefined], when it is [d].  A second trip changes nothing, and the
    instance is one that a factory built. *)
Theorem fromNullable_toNullable (v : val) :
  Option.toNullable (Option.fromNullable v)
  = match v with VUndefined => VNull | _ => v end
  /\ Option.toUndefined (Option.fromNullable v)
     = match v with VNull => VUndefined | _ => v end
  /\ (forall d,
         Option.unwrapOr (Option.fromNullable v) d
         = match v with VNull | VUndefined => d | _ => v end)
  /\ Option.fromNullable (Option.toNullable (Option.fromNullable v))
     = Option.fromNullable v
  /\ Option.fromNullable (Option.toUndefined (Option.fromNullable v))
     = Option.fromNullable v
  /\ Option.isSome (Option.fromNullable v) = negb (loose_eq_null v)
  /\ Option_built (Option.fromNullable v).
Proof.
  destruct v; cbn; repeat split; constructor.
Qed.

(** X22.  The Option class keeps its instances in the two shapes that the
    factories build (an Absent instance carries [undefined]): on receivers
    and arguments of these shapes, [and], [or], [map], [filter], and
    [andThen] and [orElse] with callbacks that return such instances, return
    such instances again. *)
Theorem Option_built_preserved (x other : Option.t)
  (Hx : Option_built x) (Hother : Option_built other) :
  Option_built (Option.and x other)
  /\ Option_built (Option.or x other)
  /\ forall (W : Type) (w : W),
      (forall f : val -> M W val,
          match Option.map x f w with
          | (Normal y, _) => Option_built y
          | (Throw _, _) => True
          end)
      /\ (forall p : val -> M W bool,
             match Option.filter x p w with
             | (Normal y, _) => Option_built y
             | (Throw _, _) => True
             end)
      /\ (forall f : val -> M W Option.t,
             (forall v w0, match f v w0 with
                           | (Normal y, _) => Option_built y
                           | (Throw _, _) => True
                           end) ->
             match Option.andThen x f w with
             | (Normal y, _) => Option_built y
             | (Throw _, _) => True
             end)
      /\ (forall fn : M W Option.t,
             (forall w0, match fn w0 with
                         | (Normal y, _) => Option_built y
                         | (Throw _, _) => True
                         end) ->
             match Option.orElse x fn w with
             | (Normal y, _) => Option_built y
             | (Throw _, _) => True
             end).
Proof.
  split; [|split].
  - destruct Hx; cbn; [assumption | constructor].
  - destruct Hx; cbn; [constructor | assumption].
  - intros W w. split; [|split; [|split]].
    + intros f. destruct Hx; run_calls; trivial; constructor.
    + intros p. destruct Hx; run_calls; trivial; try constructor.
      destruct a; constructor.
    + intros f Hf. destruct Hx; cbn; [apply Hf | constructor].
    + intros fn Hfn. destruct Hx; cbn; [constructor | apply Hfn].
Qed.

Lemma Option_built_preserved_witness :
  Option_built (Option.and (Option.some (VNumber 1)) Option.none)
  /\ Option_built (Option.or (Option.some (VNumber 1)) Option.none).
Proof.
  destruct (Option_built_preserved (Option.some (VNumber 1)) Option.none
              (built_some (VNumber 1)) built_none) as (Hand & Hor & _).
  split; [exact Hand | exact Hor].
Defined.

(** X23.  The Result class keeps its instances in the two shapes that the
    factories build (a Success carries no error, a Failure no value): on
    receivers and arguments of these shapes, [and], [or], [map], [mapErr],
    and [andThen] and [orElse] with callbacks that return such instances,
    return such instances again. *)
Theorem Result_built_preserved (x other : Result.t)
  (Hx : Result_built x) (Hother : Result_built other) :
  Result_built (Result.and x other)
  /\ Result_built (Result.or x other)
  /\ forall (W : Type) (w : W),
      (forall f : val -> M W val,
          match Result.map x f w with
          | (Normal y, _) => Result_built y
          | (Throw _, _) => True
          end)
      /\ (forall f : val -> M W val,
             match Result.mapErr x f w with
             | (Normal y, _) => Result_built y
             | (Throw _, _) => True
             end)
      /\ (forall f : val -> M W Result.t,
             (forall v w0, match f v w0 with
                           | (Normal y, _) => Result_built y
                           | (Throw _, _) => True
                           end) ->
             match Result.andThen x f w with
             | (Normal y, _) => Result_built y
             | (Throw _, _) => True
             end)
      /\ (forall f : val -> M W Result.t,
             (forall e w0, match f e w0 with
                           | (Normal y, _) => Result_built y
                           | (Throw _, _) => True
                           end) ->
             match Result.orElse x f w with
             | (Normal y, _) => Result_built y
             | (Throw _, _) => True
             end).
Proof.
  split; [|split].
  - destruct Hx; cbn; [assumption | constructor].
  - destruct Hx; cbn; [constructor | assumption].
  - intros W w. split; [|split; [|split]].
    + intros f. destruct Hx; run_calls; trivial; constructor.
    + intros f. destruct Hx; run_calls; trivial; constructor.
    + intros f Hf. destruct Hx; cbn; [apply Hf | constructor].
    + intros f Hf. destruct Hx; cbn; [constructor | apply Hf].
Qed.

Lemma Result_built_preserved_witness :
  Result_built (Result.and (Result.ok (VNumber 1)) (Result.err (VString "e")))
  /\ Result_built (Result.or (Result.ok (VNumber 1)) (Result.err (VString "e"))).
Proof.
  destruct (Result_built_preserved (Result.ok (VNumber 1)) (Result.err (VString "e"))
              (built_ok (VNumber 1)) (built_err (VString "e")))
    as (Hand & Hor & _).
  split; [exact Hand | exact Hor].
Defined.

(** X24.  The promise that the Result helper [wrapAsync] returns is never
    rejected; it stays pending exactly when the awaited promise does; and
    when the awaited promise settles, it is fulfilled with the Result that
    [wrapSync] returns for a function ending the same way, so a rejection
    reason is kept as the Failure payload. *)
Theorem Result_wrapAsync_spec (promise : Promise val) :
  (forall reason, ResultHelpers.wrapAsync promise <> Rejected reason)
  /\ (ResultHelpers.wrapAsync promise = Pending <-> promise = Pending)
  /\ (forall (c : completion val) (W : Type) (w : W),
         exists r,
           ResultHelpers.wrapAsync (settled c) = Fulfilled r
           /\ ResultHelpers.wrapSync (lift c) w = (Normal r, w)
           /\ r = match c with
                  | Normal v => Result.ok v
                  | Throw e => Result.err e
                  end).
Proof.
  split; [|split].
  - intros reason. destruct promise; discriminate.
  - destruct promise; cbn; split; congruence.
  - intros [v|e] W w; eexists; repeat split.
Qed.

(** X25.  The promise that the Option helper [wrapAsync] returns is never
    rejected; it stays pending exactly when the awaited promise does; and
    when the awaited promise settles, it is fulfilled with what [wrapSync]
    returns for a function ending the same way: [Some(v)] on a fulfilment
    with [v], and a value that does not depend on the reason on a
    rejection. *)
Theorem Option_wrapAsync_spec (promise : Promise val) :
  (forall reason, OptionHelpers.wrapAsync promise <> Rejected reason)
  /\ (OptionHelpers.wrapAsync promise = Pending <-> promise = Pending)
  /\ (forall (c : completion val) (W : Type) (w : W),
         exists r,
           OptionHelpers.wrapAsync (settled c) = Fulfilled r
           /\ OptionHelpers.wrapSync (lift c) w = (Normal r, w))
  /\ (forall v, OptionHelpers.wrapAsync (Fulfilled v)
                = Fulfilled (VOption (Option.some v)))
  /\ (forall e e', OptionHelpers.wrapAsync (Rejected e)
                   = OptionHelpers.wrapAsync (Rejected e')).
Proof.
  split; [|split; [|split; [|split]]]; try reflexivity.
  - intros reason. destruct promise; discriminate.
  - destruct promise; cbn; split; congruence.
  - intros [v|e] W w; eexists; split; reflexivity.
Qed.
